(** * Debugger V2 store types (debugger_types.ts)

    A shallow embedding of the type declarations of
    tensorboard/plugins/debugger_v2/tf_debugger_v2_plugin/store/debugger_types.ts
    and the properties of the data model that follow from them.

    - TypeScript [number] is an IEEE-754 binary64 value: it is modelled by
      the Standard Library's [spec_float] (signed zeros, infinities, one
      NaN, finite values as sign, mantissa and exponent).
    - enums are inductive types together with the value each member is
      assigned in the source;
    - interfaces are records, one module per interface so that the field
      names of the source are kept;
    - index signatures ([{[k: string]: T}], [{[k: number]: T}]) are finite
      maps over the declared key type;
    - [LoadState], imported from webapp/types/data, is a type parameter of
      the interfaces that mention it.

    The module declares shapes only.  The two invariants its comments
    document, on [graph_execution_trace_index] and on [pageLoadedSizes],
    are kept by the code that builds the values; that code is modelled in
    the section on producers. *)

From Stdlib Require Import ZArith List String Bool Lia.
From Stdlib Require Import Floats.SpecFloat.
From stdpp Require Import base decidable countable gmap strings pretty.

Local Open Scope string_scope.
Local Open Scope Z_scope.

(** ** JavaScript numbers *)

(** [number]: every field the source declares as [number]. *)
Definition number : Type := spec_float.

(** Precision and exponent bound of binary64. *)
Definition number_prec : Z := 53.
Definition number_emax : Z := 1024.

(** The values a JavaScript engine can hold: the canonical binary64
    representations. *)
Definition number_valid (n : number) : bool :=
  valid_binary number_prec number_emax n.

(** The number an integer literal denotes (round to nearest, ties to even). *)
Definition number_of_Z (z : Z) : number :=
  binary_normalize number_prec number_emax z 0 false.

(** The integer a number stands for, when its value is an integer
    ([Number.isInteger]); infinities, NaN and fractions have none. *)
Definition number_to_Z (n : number) : option Z :=
  match n with
  | S754_zero _ => Some 0
  | S754_finite s m (Zneg k) =>
      if (Zpos m mod 2 ^ Zpos k =? 0)
      then Some (cond_Zopp s (Zpos m / 2 ^ Zpos k))
      else None
  | S754_finite s m e => Some (cond_Zopp s (Zpos m * 2 ^ e))
  | S754_infinity _ => None
  | S754_nan => None
  end.

Definition number_is_nonneg_integer (n : number) : bool :=
  match number_to_Z n with
  | Some z => 0 <=? z
  | None => false
  end.

(** The 53-bit mantissa of a positive integer below 2^53: the integer
    shifted left until its leading bit is bit 52. *)
Definition safe_mantissa (p : positive) : positive :=
  match (Zpos (digits2_pos p) - 53)%Z with
  | Zneg k => Pos.iter xO p k
  | _ => p
  end.

(** JavaScript [<=] and [<] on numbers (false as soon as one side is NaN). *)
Definition number_leb (a b : number) : bool := SFleb a b.
Definition number_ltb (a b : number) : bool := SFltb a b.

#[global] Instance number_eq_dec : EqDecision number.
Proof. unfold number. solve_decision. Defined.

Definition number_encode (n : number) : bool + bool + unit + bool * positive * Z :=
  match n with
  | S754_zero s => inl (inl (inl s))
  | S754_infinity s => inl (inl (inr s))
  | S754_nan => inl (inr tt)
  | S754_finite s m e => inr (s, m, e)
  end.

Definition number_decode (x : bool + bool + unit + bool * positive * Z) : number :=
  match x with
  | inl (inl (inl s)) => S754_zero s
  | inl (inl (inr s)) => S754_infinity s
  | inl (inr _) => S754_nan
  | inr (s, m, e) => S754_finite s m e
  end.

#[global] Instance number_countable : Countable number.
Proof. apply (inj_countable' number_encode number_decode). intros []; reflexivity. Defined.

(** ** Constants and enums *)

(** [export const DEBUGGER_FEATURE_KEY = 'debugger';] *)
Definition DEBUGGER_FEATURE_KEY : string := "debugger".

(** [export enum TensorDebugMode]: a numeric enum, every member with an
    explicit initializer. *)
Module TensorDebugMode.

Inductive t : Type :=
| UNSPECIFIED
| NO_TENSOR
| CURT_HEALTH
| CONCISE_HEALTH
| FULL_HEALTH
| SHAPE
| FULL_NUMERICS
| FULL_TENSOR
| REDUCE_INF_NAN_THREE_SLOTS.

(** The integer literal the source assigns to each member. *)
Definition value (m : t) : Z :=
  match m with
  | UNSPECIFIED => 0
  | NO_TENSOR => 1
  | CURT_HEALTH => 2
  | CONCISE_HEALTH => 3
  | FULL_HEALTH => 4
  | SHAPE => 5
  | FULL_NUMERICS => 6
  | FULL_TENSOR => 7
  | REDUCE_INF_NAN_THREE_SLOTS => 8
  end.

(** The members in declaration order. *)
Definition members : list t :=
  [UNSPECIFIED; NO_TENSOR; CURT_HEALTH; CONCISE_HEALTH; FULL_HEALTH;
   SHAPE; FULL_NUMERICS; FULL_TENSOR; REDUCE_INF_NAN_THREE_SLOTS].

(** The run-time value of a member is a JavaScript number. *)
Definition to_number (m : t) : number := number_of_Z (value m).

(** The reverse mapping of a numeric enum ([TensorDebugMode[7]]). *)
Definition of_value (z : Z) : option t :=
  List.find (fun m => value m =? z) members.

(** Reading a number back as a member: defined on the nine values only. *)
Definition of_number (n : number) : option t :=
  match number_to_Z n with
  | Some z => of_value z
  | None => None
  end.

#[global] Instance mode_eq_dec : EqDecision t.
Proof. solve_decision. Defined.

End TensorDebugMode.

(** [export enum AlertType]: a string enum. *)
Module AlertType.

Inductive t : Type :=
| FUNCTION_RECOMPILE_ALERT
| INF_NAN_ALERT
| TENSOR_SHAPE_ALERT.

(** The string literal the source assigns to each member. *)
Definition value (a : t) : string :=
  match a with
  | FUNCTION_RECOMPILE_ALERT => "FunctionRecompilesAlert"
  | INF_NAN_ALERT => "InfNanAlert"
  | TENSOR_SHAPE_ALERT => "TensorShapeAlert"
  end.

Definition members : list t :=
  [FUNCTION_RECOMPILE_ALERT; INF_NAN_ALERT; TENSOR_SHAPE_ALERT].

#[global] Instance alert_type_eq_dec : EqDecision t.
Proof. solve_decision. Defined.

(** An enum member used as a type ([AlertType.INF_NAN_ALERT] in a field
    declaration): the type whose only value is that member. *)
Definition literal (v : t) : Type := { x : t | x = v }.

Definition literal_value {v : t} (x : literal v) : t := proj1_sig x.

Definition the_literal (v : t) : literal v := exist _ v eq_refl.

End AlertType.

(** ** Interfaces and type aliases *)

(** [export interface DebuggerRunMetadata] *)
Module DebuggerRunMetadata.
Record t : Type := mk {
  (* Time at which the debugger run started. Seconds since the epoch. *)
  start_time : number
}.
End DebuggerRunMetadata.

(** [export interface DebuggerRunListing { [runId: string]: DebuggerRunMetadata }] *)
Abbreviation DebuggerRunListing := (gmap string DebuggerRunMetadata.t).

(** [export type StackFrame = [string, string, number, string];]
    Each item is [host_name, file_path, lineno, function]. *)
Definition StackFrame : Type := (string * string * number * string)%type.

(** [export type StackFramesById = {[id: string]: StackFrame};] *)
Abbreviation StackFramesById := (gmap string StackFrame).

(** An element of a JavaScript array holding a [StackFrame]: the tuple
    type only has string and number positions. *)
Inductive StackFrameItem : Type :=
| ItemString (s : string)
| ItemNumber (n : number).

Inductive ItemKind : Type := KString | KNumber.

Definition item_kind (i : StackFrameItem) : ItemKind :=
  match i with
  | ItemString _ => KString
  | ItemNumber _ => KNumber
  end.

(** The array a [StackFrame] is at run time. *)
Definition StackFrame_items (f : StackFrame) : list StackFrameItem :=
  let '(host_name, file_path, lineno, function) := f in
  [ItemString host_name; ItemString file_path; ItemNumber lineno; ItemString function].

(** Reading an array back at the tuple type: it has the type exactly when
    it has the four positions with the declared kinds. *)
Definition StackFrame_of_items (l : list StackFrameItem) : option StackFrame :=
  match l with
  | [ItemString host_name; ItemString file_path; ItemNumber lineno; ItemString function] =>
      Some (host_name, file_path, lineno, function)
  | _ => None
  end.

(** [export interface ExecutionDigest] *)
Module ExecutionDigest.
Record t : Type := mk {
  (* Op type executed. *)
  op_type : string;
  (* Output tensor device ids. *)
  output_tensor_device_ids : list string
}.
End ExecutionDigest.

(** [export interface Execution extends ExecutionDigest]: the inherited
    members come first, then the declared ones. *)
Module Execution.
Record t : Type := mk {
  op_type : string;
  output_tensor_device_ids : list string;
  host_name : string;
  stack_frame_ids : list string;
  tensor_debug_mode : number;
  graph_id : option string;
  input_tensor_ids : list number;
  output_tensor_ids : list number;
  debug_tensor_values : option (list (option (list number)))
}.

(** An [Execution] used where an [ExecutionDigest] is expected: the same
    object, seen through the members the base interface declares. *)
Definition as_ExecutionDigest (e : t) : ExecutionDigest.t :=
  {| ExecutionDigest.op_type := op_type e;
     ExecutionDigest.output_tensor_device_ids := output_tensor_device_ids e |}.

(** [{...e, tensor_debug_mode: n}] *)
Definition with_tensor_debug_mode (n : number) (e : t) : t :=
  {| op_type := op_type e;
     output_tensor_device_ids := output_tensor_device_ids e;
     host_name := host_name e;
     stack_frame_ids := stack_frame_ids e;
     tensor_debug_mode := n;
     graph_id := graph_id e;
     input_tensor_ids := input_tensor_ids e;
     output_tensor_ids := output_tensor_ids e;
     debug_tensor_values := debug_tensor_values e |}.
End Execution.

(** [export interface Alert] *)
Module Alert.
Record t : Type := mk {
  alert_type : AlertType.t
}.
End Alert.

(** [export interface InfNanAlert extends Alert]: the inherited member
    [alert_type] is redeclared at the literal type
    [AlertType.INF_NAN_ALERT]. *)
Module InfNanAlert.
Record t : Type := mk {
  alert_type : AlertType.literal AlertType.INF_NAN_ALERT;
  op_type : string;
  output_slot : number;
  size : number;
  num_neg_inf : number;
  num_pos_inf : number;
  num_nan : number;
  execution_index : number;
  (* This value is a number (non-negative integer) for InfNanAlerts due to
     intra-graph execution. It is null for InfNanAlerts due to eager
     execution. *)
  graph_execution_trace_index : option number
}.

(** An [InfNanAlert] used where an [Alert] is expected. *)
Definition as_Alert (a : t) : Alert.t :=
  {| Alert.alert_type := AlertType.literal_value (alert_type a) |}.
End InfNanAlert.

(** [export interface ExecutionDigestLoadState extends LoadState].
    [LoadState] is imported from webapp/types/data, which is not part of
    this module: it is a parameter, and the inherited members are the
    field [loadState]. *)
Module ExecutionDigestLoadState.
Record t (LoadState : Type) : Type := mk {
  loadState : LoadState;
  (* A map from page number to whether the page has been loaded
       - in full, in which case the value is pageSize.
       - partially, in which case the value is an integer < pageSize. *)
  pageLoadedSizes : gmap number number;
  (* Number of top-level executions available at the data source. *)
  numExecutions : number
}.
Arguments mk {LoadState} _ _ _.
Arguments loadState {LoadState} _.
Arguments pageLoadedSizes {LoadState} _.
Arguments numExecutions {LoadState} _.
End ExecutionDigestLoadState.

(** [export type AlertsBreakdown = {[alertType: string]: number};] *)
Abbreviation AlertsBreakdown := (gmap string number).

(** [export type AlertsByIndex = {[index: number]: Alert};] *)
Abbreviation AlertsByIndex := (gmap number Alert.t).

(** [export interface Alerts] *)
Module Alerts.
Record t (LoadState : Type) : Type := mk {
  alertsLoaded : LoadState;
  numAlerts : number;
  alertsBreakdown : AlertsBreakdown;
  alerts : gmap string AlertsByIndex;
  executionIndices : gmap string (list number);
  focusType : option AlertType.t
}.
Arguments mk {LoadState} _ _ _ _ _ _.
Arguments alertsLoaded {LoadState} _.
Arguments numAlerts {LoadState} _.
Arguments alertsBreakdown {LoadState} _.
Arguments alerts {LoadState} _.
Arguments executionIndices {LoadState} _.
Arguments focusType {LoadState} _.
End Alerts.

(** [export interface Executions] *)
Module Executions.
Record t (LoadState : Type) : Type := mk {
  numExecutionsLoaded : LoadState;
  executionDigestsLoaded : ExecutionDigestLoadState.t LoadState;
  (* Page size used for accessing data source. For example, if pageSize is
     1000, each request to the data source will have a beginning index
     1000 * N, where N is a non-negative integer. It will have an ending
     index of 1000 * (N + 1) if it doesn't exceed numExecutions; otherwise,
     the ending index will be numExecutions. *)
  pageSize : number;
  displayCount : number;
  scrollBeginIndex : number;
  focusIndex : option number;
  executionDigests : gmap number ExecutionDigest.t;
  executionData : gmap number Execution.t
}.
Arguments mk {LoadState} _ _ _ _ _ _ _ _.
Arguments numExecutionsLoaded {LoadState} _.
Arguments executionDigestsLoaded {LoadState} _.
Arguments pageSize {LoadState} _.
Arguments displayCount {LoadState} _.
Arguments scrollBeginIndex {LoadState} _.
Arguments focusIndex {LoadState} _.
Arguments executionDigests {LoadState} _.
Arguments executionData {LoadState} _.
End Executions.

(** [export interface RunState] *)
Module RunState.
Record t (LoadState : Type) : Type := mk {
  executions : Executions.t LoadState
}.
Arguments mk {LoadState} _.
Arguments executions {LoadState} _.
End RunState.

(** [export interface DebuggerState] *)
Module DebuggerState.
Record t (LoadState : Type) : Type := mk {
  runs : DebuggerRunListing;
  runsLoaded : LoadState;
  activeRunId : option string;
  alerts : Alerts.t LoadState;
  executions : Executions.t LoadState;
  stackFrames : StackFramesById
}.
Arguments mk {LoadState} _ _ _ _ _ _.
Arguments runs {LoadState} _.
Arguments runsLoaded {LoadState} _.
Arguments activeRunId {LoadState} _.
Arguments alerts {LoadState} _.
Arguments executions {LoadState} _.
Arguments stackFrames {LoadState} _.
End DebuggerState.

(** [export interface State { [DEBUGGER_FEATURE_KEY]: DebuggerState }]:
    one member, whose name is the value of the constant. *)
Module State.
Record t (LoadState : Type) : Type := mk {
  debugger : DebuggerState.t LoadState
}.
Arguments mk {LoadState} _.
Arguments debugger {LoadState} _.

(** The property names the interface declares. *)
Definition keys : list string := [DEBUGGER_FEATURE_KEY].

(** Property access [s[k]] at the members the interface declares. *)
Definition get {LoadState : Type} (s : t LoadState) (k : string)
  : option (DebuggerState.t LoadState) :=
  if decide (k = DEBUGGER_FEATURE_KEY) then Some (debugger s) else None.
End State.

(** ** Producers of the state *)

(** Modelled from the spec: what an alert was triggered by, which the
    declared shapes do not record.  A "top-level execution" is "one
    eager-mode operation invocation"; a "graph execution trace" is "a
    captured intermediate tensor value from inside a compiled-graph
    execution", identified by its index among the traces. *)
Inductive AlertOrigin : Type :=
| EagerExecution
| IntraGraphExecution (trace_index : N).

(** Modelled from the spec: the code that builds an [InfNanAlert] from a
    debugger event is missing from this module, which only declares the
    shape of the alert.  "An InfNanAlert constructed from an eager
    execution must carry graph_execution_trace_index = null; one from a
    graph execution must carry a non-negative integer there", that integer
    being the "index into intra-graph execution traces". *)
Definition InfNanAlert_of_origin (origin : AlertOrigin) (op_type : string)
    (output_slot size num_neg_inf num_pos_inf num_nan execution_index : number)
  : InfNanAlert.t :=
  {| InfNanAlert.alert_type := AlertType.the_literal AlertType.INF_NAN_ALERT;
     InfNanAlert.op_type := op_type;
     InfNanAlert.output_slot := output_slot;
     InfNanAlert.size := size;
     InfNanAlert.num_neg_inf := num_neg_inf;
     InfNanAlert.num_pos_inf := num_pos_inf;
     InfNanAlert.num_nan := num_nan;
     InfNanAlert.execution_index := execution_index;
     InfNanAlert.graph_execution_trace_index :=
       match origin with
       | EagerExecution => None
       | IntraGraphExecution trace_index => Some (number_of_Z (Z.of_N trace_index))
       end |}.

(** The indices a number holds exactly: the integers from 0 to 2^53 - 1. *)
Definition safe_index (z : Z) : Prop := 0 <= z < 2 ^ 53.

(** The trace index of an origin, if it has one, is such an index. *)
Definition origin_index_safe (origin : AlertOrigin) : Prop :=
  match origin with
  | EagerExecution => True
  | IntraGraphExecution trace_index => safe_index (Z.of_N trace_index)
  end.

(** Modelled from the spec: the store code that requests pages of
    execution digests and records what was loaded is missing from this
    module.  As the comment of [pageSize] has it, the request for page
    [page] begins at index [pageSize * page]. *)
Definition pageBeginIndex (pageSize page : Z) : Z := pageSize * page.

(** Modelled from the spec: the request ends at [pageSize * (page + 1)] if
    that does not exceed [numExecutions], otherwise at [numExecutions]. *)
Definition pageEndIndex (pageSize numExecutions page : Z) : Z :=
  if pageSize * (page + 1) <=? numExecutions
  then pageSize * (page + 1)
  else numExecutions.

(** Modelled from the spec: "the count of items loaded for that page
    (fully loaded = configured page size; partially loaded = smaller
    count)": the length of the range requested for the page. *)
Definition pageLoadedSize (pageSize numExecutions page : Z) : Z :=
  pageEndIndex pageSize numExecutions page - pageBeginIndex pageSize page.

(** Modelled from the spec: a page is loaded in full when its whole range
    lies within the executions the data source has, partially otherwise. *)
Definition pageLoadedInFull (pageSize numExecutions page : Z) : bool :=
  pageSize * (page + 1) <=? numExecutions.

(** Modelled from the spec: recording that page [page] was loaded while
    the data source had [numExecutions] executions, under page size
    [pageSize]:
    [pageLoadedSizes[page] = end - begin; numExecutions = numExecutions]. *)
Definition recordPageLoaded {LoadState : Type} (pageSize numExecutions page : Z)
    (e : Executions.t LoadState) : Executions.t LoadState :=
  let loaded := Executions.executionDigestsLoaded e in
  {| Executions.numExecutionsLoaded := Executions.numExecutionsLoaded e;
     Executions.executionDigestsLoaded :=
       {| ExecutionDigestLoadState.loadState :=
            ExecutionDigestLoadState.loadState loaded;
          ExecutionDigestLoadState.pageLoadedSizes :=
            <[number_of_Z page :=
                number_of_Z (pageLoadedSize pageSize numExecutions page)]>
              (ExecutionDigestLoadState.pageLoadedSizes loaded);
          ExecutionDigestLoadState.numExecutions := number_of_Z numExecutions |};
     Executions.pageSize := Executions.pageSize e;
     Executions.displayCount := Executions.displayCount e;
     Executions.scrollBeginIndex := Executions.scrollBeginIndex e;
     Executions.focusIndex := Executions.focusIndex e;
     Executions.executionDigests := Executions.executionDigests e;
     Executions.executionData := Executions.executionData e |}.

(** Modelled from the spec: a request the store makes: page [N] for "a
    non-negative integer" [N], beginning within the executions of the data
    source. *)
Definition pageRequest (pageSize numExecutions page : Z) : Prop :=
  0 <= page /\ pageBeginIndex pageSize page <= numExecutions.

(** Modelled from the spec: the [Executions] states the store goes through
    under page size [pageSize]: it starts with no page loaded and records
    one page after the other, the page size staying as configured. *)
Inductive pagesLoaded {LoadState : Type} (pageSize : Z)
  : Executions.t LoadState -> Prop :=
| pagesLoaded_none (e : Executions.t LoadState) :
    Executions.pageSize e = number_of_Z pageSize ->
    ExecutionDigestLoadState.pageLoadedSizes (Executions.executionDigestsLoaded e) = ∅ ->
    pagesLoaded pageSize e
| pagesLoaded_page (e : Executions.t LoadState) (numExecutions page : Z) :
    pagesLoaded pageSize e ->
    pageRequest pageSize numExecutions page ->
    pagesLoaded pageSize (recordPageLoaded pageSize numExecutions page e).

(** ** The enum object of [TensorDebugMode] *)

(** The identifier of each member of [TensorDebugMode], as the source
    spells it. *)
Definition TensorDebugMode_name (m : TensorDebugMode.t) : string :=
  match m with
  | TensorDebugMode.UNSPECIFIED => "UNSPECIFIED"
  | TensorDebugMode.NO_TENSOR => "NO_TENSOR"
  | TensorDebugMode.CURT_HEALTH => "CURT_HEALTH"
  | TensorDebugMode.CONCISE_HEALTH => "CONCISE_HEALTH"
  | TensorDebugMode.FULL_HEALTH => "FULL_HEALTH"
  | TensorDebugMode.SHAPE => "SHAPE"
  | TensorDebugMode.FULL_NUMERICS => "FULL_NUMERICS"
  | TensorDebugMode.FULL_TENSOR => "FULL_TENSOR"
  | TensorDebugMode.REDUCE_INF_NAN_THREE_SLOTS => "REDUCE_INF_NAN_THREE_SLOTS"
  end.

(** A property of the object a numeric enum is at run time: a member's
    number under its name, a member's name under its number. *)
Inductive EnumProperty : Type :=
| EnumNumber (z : Z)
| EnumName (s : string).

(** The object [export enum TensorDebugMode] declares: for each member in
    turn, [E[E[name] = value] = name]; the key of the second assignment is
    the value in decimal. *)
Definition TensorDebugMode_object : gmap string EnumProperty :=
  foldl
    (fun obj m =>
       <[pretty (TensorDebugMode.value m) := EnumName (TensorDebugMode_name m)]>
         (<[TensorDebugMode_name m := EnumNumber (TensorDebugMode.value m)]> obj))
    ∅ TensorDebugMode.members.

(** ** Pages of the execution list *)

(** The executions loaded by the requests for pages [0] to [pages - 1]
    together. *)
Fixpoint loadedThrough (pageSize numExecutions : Z) (pages : nat) : Z :=
  match pages with
  | O => 0
  | S k =>
      loadedThrough pageSize numExecutions k
      + pageLoadedSize pageSize numExecutions (Z.of_nat k)
  end.

(** * Properties *)

(** ** Integers held exactly by a number *)

Example number_of_Z_9 : number_of_Z 9 = S754_finite false 5066549580791808 (-49).
Proof. reflexivity. Qed.

Example number_to_Z_9 : number_to_Z (number_of_Z 9) = Some 9.
Proof. reflexivity. Qed.

(** One half, minus one, NaN and the infinities are numbers, but not
    non-negative integers. *)
Example number_not_nonneg_integer :
  let half := S754_finite false 4503599627370496 (-53) in
  number_valid half = true
  /\ number_is_nonneg_integer half = false
  /\ number_is_nonneg_integer (number_of_Z (-1)) = false
  /\ number_is_nonneg_integer S754_nan = false
  /\ number_is_nonneg_integer (S754_infinity false) = false
  /\ number_is_nonneg_integer (number_of_Z 0) = true.
Proof. repeat split. Qed.

(** Comparisons with NaN are false. *)
Example number_leb_nan :
  number_leb S754_nan (number_of_Z 1) = false
  /\ number_leb (number_of_Z 1) S754_nan = false
  /\ number_leb (number_of_Z 1) (number_of_Z 2) = true.
Proof. repeat split. Qed.

(** Shifting a mantissa left by [k] bits adds [k] to its number of bits. *)
Lemma digits2_pos_iter_xO (p k : positive) :
  digits2_pos (Pos.iter xO p k) = (digits2_pos p + k)%positive.
Proof.
  induction k as [|k IH] using Pos.peano_ind.
  - simpl. lia.
  - rewrite Pos.iter_succ. simpl. rewrite IH. lia.
Qed.

(** ... and multiplies its value by [2 ^ k]. *)
Lemma Zpos_iter_xO (p k : positive) :
  Zpos (Pos.iter xO p k) = Zpos p * 2 ^ Zpos k.
Proof.
  induction k as [|k IH] using Pos.peano_ind.
  - simpl. lia.
  - rewrite Pos.iter_succ, Pos2Z.inj_xO, IH, Pos2Z.inj_succ, Z.pow_succ_r by lia. lia.
Qed.

(** A positive integer of [d] bits lies between [2 ^ (d - 1)] and [2 ^ d]. *)
Lemma digits2_pos_bounds (p : positive) :
  2 ^ (Zpos (digits2_pos p) - 1) <= Zpos p < 2 ^ Zpos (digits2_pos p).
Proof.
  induction p as [p IH|p IH|]; simpl digits2_pos.
  - rewrite Pos2Z.inj_succ, Z.pow_succ_r by lia.
    replace (Z.succ (Zpos (digits2_pos p)) - 1) with (Z.succ (Zpos (digits2_pos p) - 1)) by lia.
    rewrite Z.pow_succ_r by lia. lia.
  - rewrite Pos2Z.inj_succ, Z.pow_succ_r by lia.
    replace (Z.succ (Zpos (digits2_pos p)) - 1) with (Z.succ (Zpos (digits2_pos p) - 1)) by lia.
    rewrite Z.pow_succ_r by lia. lia.
  - simpl. lia.
Qed.

Lemma digits2_pos_le_53 (p : positive) :
  Zpos p < 2 ^ 53 -> Zpos (digits2_pos p) <= 53.
Proof.
  intros Hp. destruct (Z_le_gt_dec (Zpos (digits2_pos p)) 53) as [H|H]; [exact H|].
  exfalso. pose proof (digits2_pos_bounds p) as [Hlo _].
  assert (2 ^ 53 <= 2 ^ (Zpos (digits2_pos p) - 1)) by (apply Z.pow_le_mono_r; lia).
  lia.
Qed.



(** Rounding leaves a 53-bit mantissa alone. *)
Lemma binary_round_aux_canonical (s : bool) (m : positive) (e : Z) :
  Zpos (digits2_pos m) = 53 -> -1074 <= e <= 971 ->
  binary_round_aux 53 1024 s (Zpos m) e loc_Exact = S754_finite s m e.
Proof.
  intros Hm He.
  unfold binary_round_aux, shr_fexp, Zdigits2, fexp, emin.
  rewrite Hm.
  replace (Z.max (53 + e - 53) (3 - 1024 - 53) - e) with 0 by lia.
  cbn [shr shr_record_of_loc shr_m loc_of_shr_record round_nearest_even Zdigits2].
  rewrite Hm.
  replace (Z.max (53 + e - 53) (3 - 1024 - 53) - e) with 0 by lia.
  cbn [shr shr_record_of_loc shr_m].
  replace (e <=? 1024 - 53) with true by (symmetry; apply Z.leb_le; lia).
  reflexivity.
Qed.

(** An integer below 2^53 is rounded to itself: its mantissa is the
    integer shifted to 53 bits, its exponent undoes the shift. *)
Lemma binary_round_safe (s : bool) (p : positive) :
  Zpos p < 2 ^ 53 ->
  binary_round 53 1024 s p 0
  = S754_finite s (safe_mantissa p) (Zpos (digits2_pos p) - 53).
Proof.
  intros Hp. pose proof (digits2_pos_le_53 p Hp) as Hd.
  unfold binary_round, safe_mantissa, shl_align, fexp, emin.
  rewrite Z.add_0_r, Z.sub_0_r.
  rewrite Z.max_l by lia.
  destruct (Zpos (digits2_pos p) - 53) as [|k|k] eqn:Hk; try lia.
  - apply binary_round_aux_canonical; lia.
  - apply binary_round_aux_canonical; [|lia].
    rewrite digits2_pos_iter_xO. lia.
Qed.

Lemma safe_mantissa_value (p : positive) :
  Zpos p < 2 ^ 53 ->
  Zpos (safe_mantissa p) = Zpos p * 2 ^ (53 - Zpos (digits2_pos p)).
Proof.
  intros Hp. pose proof (digits2_pos_le_53 p Hp) as Hd.
  unfold safe_mantissa.
  destruct (Zpos (digits2_pos p) - 53) as [|k|k] eqn:Hk; try lia.
  - replace (53 - Zpos (digits2_pos p)) with 0 by lia. lia.
  - rewrite Zpos_iter_xO. f_equal. f_equal. lia.
Qed.

Lemma safe_mantissa_digits (p : positive) :
  Zpos p < 2 ^ 53 -> Zpos (digits2_pos (safe_mantissa p)) = 53.
Proof.
  intros Hp. pose proof (digits2_pos_le_53 p Hp) as Hd.
  unfold safe_mantissa.
  destruct (Zpos (digits2_pos p) - 53) as [|k|k] eqn:Hk; try lia.
  rewrite digits2_pos_iter_xO. lia.
Qed.

Lemma number_to_Z_safe (s : bool) (p : positive) :
  Zpos p < 2 ^ 53 ->
  number_to_Z (S754_finite s (safe_mantissa p) (Zpos (digits2_pos p) - 53))
  = Some (cond_Zopp s (Zpos p)).
Proof.
  intros Hp. pose proof (digits2_pos_le_53 p Hp) as Hd.
  pose proof (safe_mantissa_value p Hp) as Hv.
  unfold number_to_Z.
  destruct (Zpos (digits2_pos p) - 53) as [|k|k] eqn:Hk; try lia.
  - rewrite Hv. replace (53 - Zpos (digits2_pos p)) with 0 by lia.
    do 2 f_equal. lia.
  - rewrite Hv. replace (53 - Zpos (digits2_pos p)) with (Zpos k) by lia.
    rewrite Z_mod_mult, Z.eqb_refl, Z_div_mult by lia. reflexivity.
Qed.

Lemma number_of_Z_pos (p : positive) :
  Zpos p < 2 ^ 53 ->
  number_of_Z (Zpos p) = S754_finite false (safe_mantissa p) (Zpos (digits2_pos p) - 53).
Proof. intros Hp. unfold number_of_Z, binary_normalize. now apply binary_round_safe. Qed.

Lemma number_of_Z_neg (p : positive) :
  Zpos p < 2 ^ 53 ->
  number_of_Z (Zneg p) = S754_finite true (safe_mantissa p) (Zpos (digits2_pos p) - 53).
Proof. intros Hp. unfold number_of_Z, binary_normalize. now apply binary_round_safe. Qed.

(** Integers of magnitude below 2^53 are held exactly. *)
Lemma number_to_Z_of_Z (z : Z) :
  - 2 ^ 53 < z < 2 ^ 53 -> number_to_Z (number_of_Z z) = Some z.
Proof.
  intros Hz. destruct z as [|p|p].
  - reflexivity.
  - rewrite number_of_Z_pos by lia. rewrite number_to_Z_safe by lia. reflexivity.
  - rewrite number_of_Z_neg by lia. rewrite number_to_Z_safe by lia. reflexivity.
Qed.

(** ... by a canonical binary64 value. *)
Lemma number_valid_of_Z (z : Z) :
  - 2 ^ 53 < z < 2 ^ 53 -> number_valid (number_of_Z z) = true.
Proof.
  intros Hz.
  assert (Hfin : forall s p, Zpos p < 2 ^ 53 ->
    number_valid (S754_finite s (safe_mantissa p) (Zpos (digits2_pos p) - 53)) = true).
  { intros s p Hp. pose proof (digits2_pos_le_53 p Hp) as Hd.
    unfold number_valid, valid_binary, bounded, canonical_mantissa, fexp, emin,
      number_prec, number_emax.
    rewrite (safe_mantissa_digits p Hp).
    apply andb_true_intro. split; [apply Z.eqb_eq | apply Z.leb_le]; lia. }
  destruct z as [|p|p].
  - reflexivity.
  - rewrite number_of_Z_pos by lia. apply Hfin. lia.
  - rewrite number_of_Z_neg by lia. apply Hfin. lia.
Qed.

Lemma number_is_nonneg_integer_of_Z (z : Z) :
  0 <= z < 2 ^ 53 -> number_is_nonneg_integer (number_of_Z z) = true.
Proof.
  intros Hz. unfold number_is_nonneg_integer.
  rewrite number_to_Z_of_Z by lia. apply Z.leb_le. lia.
Qed.

(** On indices, the comparison of numbers is the comparison of integers. *)
Lemma SFcompare_of_Z (a b : Z) :
  0 <= a < 2 ^ 53 -> 0 <= b < 2 ^ 53 ->
  SFcompare (number_of_Z a) (number_of_Z b) = Some (a ?= b).
Proof.
  intros Ha Hb. destruct a as [|p|p]; destruct b as [|q|q]; try lia.
  - reflexivity.
  - rewrite (number_of_Z_pos q) by lia. reflexivity.
  - rewrite (number_of_Z_pos p) by lia. reflexivity.
  - rewrite (number_of_Z_pos p), (number_of_Z_pos q) by lia.
    assert (Hp : Zpos p < 2 ^ 53) by lia. assert (Hq : Zpos q < 2 ^ 53) by lia.
    pose proof (digits2_pos_bounds p) as [Hplo Hphi].
    pose proof (digits2_pos_bounds q) as [Hqlo Hqhi].
    pose proof (digits2_pos_le_53 p Hp) as Hdp.
    pose proof (digits2_pos_le_53 q Hq) as Hdq.
    cbn [SFcompare]. f_equal.
    destruct (Z.compare_spec (Zpos (digits2_pos p) - 53) (Zpos (digits2_pos q) - 53)) as [He|He|He].
    + change (Pos.compare_cont Eq (safe_mantissa p) (safe_mantissa q))
        with (Pos.compare (safe_mantissa p) (safe_mantissa q)).
      rewrite Pos2Z.inj_compare, !safe_mantissa_value by assumption.
      replace (Zpos (digits2_pos q)) with (Zpos (digits2_pos p)) by lia.
      assert (HK : 0 < 2 ^ (53 - Zpos (digits2_pos p))) by (apply Z.pow_pos_nonneg; lia).
      destruct (Z.compare_spec (Zpos p) (Zpos q)) as [Hc|Hc|Hc].
      * rewrite Hc. apply Z.compare_refl.
      * apply Z.compare_lt_iff. nia.
      * apply Z.compare_gt_iff. nia.
    + symmetry. apply Z.compare_lt_iff.
      assert (2 ^ Zpos (digits2_pos p) <= 2 ^ (Zpos (digits2_pos q) - 1))
        by (apply Z.pow_le_mono_r; lia).
      lia.
    + symmetry. apply Z.compare_gt_iff.
      assert (2 ^ Zpos (digits2_pos q) <= 2 ^ (Zpos (digits2_pos p) - 1))
        by (apply Z.pow_le_mono_r; lia).
      lia.
Qed.

Lemma number_leb_of_Z (a b : Z) :
  0 <= a < 2 ^ 53 -> 0 <= b < 2 ^ 53 ->
  number_leb (number_of_Z a) (number_of_Z b) = (a <=? b).
Proof.
  intros Ha Hb. unfold number_leb, SFleb. rewrite SFcompare_of_Z by assumption.
  unfold Z.leb. destruct (a ?= b); reflexivity.
Qed.

Lemma number_ltb_of_Z (a b : Z) :
  0 <= a < 2 ^ 53 -> 0 <= b < 2 ^ 53 ->
  number_ltb (number_of_Z a) (number_of_Z b) = (a <? b).
Proof.
  intros Ha Hb. unfold number_ltb, SFltb. rewrite SFcompare_of_Z by assumption.
  unfold Z.ltb. destruct (a ?= b); reflexivity.
Qed.

(** ** Enums and constants *)

(** C1. Every member of [TensorDebugMode] is assigned its documented
    integer, in declaration order UNSPECIFIED = 0, NO_TENSOR = 1,
    CURT_HEALTH = 2, CONCISE_HEALTH = 3, FULL_HEALTH = 4, SHAPE = 5,
    FULL_NUMERICS = 6, FULL_TENSOR = 7, REDUCE_INF_NAN_THREE_SLOTS = 8;
    the enum has these nine members and no other, and each value is held
    exactly by the number the member is at run time. *)
Theorem TensorDebugMode_values :
  map TensorDebugMode.value TensorDebugMode.members = [0; 1; 2; 3; 4; 5; 6; 7; 8]
  /\ TensorDebugMode.members
     = [TensorDebugMode.UNSPECIFIED; TensorDebugMode.NO_TENSOR;
        TensorDebugMode.CURT_HEALTH; TensorDebugMode.CONCISE_HEALTH;
        TensorDebugMode.FULL_HEALTH; TensorDebugMode.SHAPE;
        TensorDebugMode.FULL_NUMERICS; TensorDebugMode.FULL_TENSOR;
        TensorDebugMode.REDUCE_INF_NAN_THREE_SLOTS]
  /\ (forall m : TensorDebugMode.t, In m TensorDebugMode.members)
  /\ NoDup TensorDebugMode.members
  /\ (forall m : TensorDebugMode.t,
        0 <= TensorDebugMode.value m <= 8
        /\ TensorDebugMode.of_value (TensorDebugMode.value m) = Some m
        /\ number_to_Z (TensorDebugMode.to_number m) = Some (TensorDebugMode.value m))
  /\ (forall z : Z, TensorDebugMode.of_value z <> None <-> 0 <= z <= 8).
Proof.
  split; [reflexivity|]. split; [reflexivity|].
  split. { intros []; simpl; tauto. }
  split.
  { repeat (apply NoDup_cons_2;
      [rewrite ?elem_of_cons, elem_of_nil; intuition discriminate|]).
    apply NoDup_nil_2. }
  split.
  { intros m. split; [destruct m; simpl; lia|]. split; destruct m; reflexivity. }
  intros z. split.
  - intros H. split.
    + destruct z as [|p|p]; try lia. exfalso. apply H. reflexivity.
    + destruct (Z_le_gt_dec z 8) as [Hle|Hgt]; [assumption|].
      exfalso. apply H. unfold TensorDebugMode.of_value, TensorDebugMode.members.
      cbn [find TensorDebugMode.value].
      repeat (match goal with |- context [?a =? z] =>
                replace (a =? z) with false by (symmetry; apply Z.eqb_neq; lia) end).
      reflexivity.
  - intros [H0 H8].
    assert (Hz : z = 0 \/ z = 1 \/ z = 2 \/ z = 3 \/ z = 4 \/ z = 5 \/ z = 6
                 \/ z = 7 \/ z = 8) by lia.
    repeat (destruct Hz as [->|Hz]; [discriminate|]). subst z. discriminate.
Qed.

(** C2. [AlertType] has exactly three members, whose string values are,
    character for character, FUNCTION_RECOMPILE_ALERT =
    'FunctionRecompilesAlert', INF_NAN_ALERT = 'InfNanAlert' and
    TENSOR_SHAPE_ALERT = 'TensorShapeAlert'. *)
Theorem AlertType_values :
  AlertType.value AlertType.FUNCTION_RECOMPILE_ALERT = "FunctionRecompilesAlert"
  /\ AlertType.value AlertType.INF_NAN_ALERT = "InfNanAlert"
  /\ AlertType.value AlertType.TENSOR_SHAPE_ALERT = "TensorShapeAlert"
  /\ AlertType.members
     = [AlertType.FUNCTION_RECOMPILE_ALERT; AlertType.INF_NAN_ALERT;
        AlertType.TENSOR_SHAPE_ALERT]
  /\ (forall a : AlertType.t, In a AlertType.members)
  /\ NoDup AlertType.members
  /\ length AlertType.members = 3%nat
  /\ (forall a b : AlertType.t, AlertType.value a = AlertType.value b -> a = b).
Proof.
  repeat split.
  - intros []; simpl; tauto.
  - repeat (apply NoDup_cons_2;
      [rewrite ?elem_of_cons, elem_of_nil; intuition discriminate|]).
    apply NoDup_nil_2.
  - intros [] []; simpl; intros H; try reflexivity; discriminate H.
Qed.

(** C3. [DEBUGGER_FEATURE_KEY] is the string 'debugger', and every [State]
    holds its [DebuggerState] under that key and declares no other key. *)
Theorem State_holds_DebuggerState_under_feature_key :
  DEBUGGER_FEATURE_KEY = "debugger"
  /\ State.keys = ["debugger"]
  /\ forall (LoadState : Type) (s : State.t LoadState),
       State.get s DEBUGGER_FEATURE_KEY = Some (State.debugger s)
       /\ State.get s "debugger" = Some (State.debugger s)
       /\ forall (k : string) (d : DebuggerState.t LoadState),
            State.get s k = Some d -> k = "debugger" /\ d = State.debugger s.
Proof.
  split; [reflexivity|]. split; [reflexivity|].
  intros LoadState s. split; [reflexivity|]. split; [reflexivity|].
  intros k d. unfold State.get. destruct (decide (k = DEBUGGER_FEATURE_KEY)) as [->|Hne].
  - intros [= <-]. split; reflexivity.
  - discriminate.
Qed.

(** ** Record shapes *)

(** C6. Every [Execution] is also an [ExecutionDigest]: it has the members
    [op_type] and [output_tensor_device_ids], and seen as a digest it
    carries the same two values; every digest is the digest of some
    [Execution]. *)
Theorem Execution_is_ExecutionDigest :
  (forall e : Execution.t,
     ExecutionDigest.op_type (Execution.as_ExecutionDigest e) = Execution.op_type e
     /\ ExecutionDigest.output_tensor_device_ids (Execution.as_ExecutionDigest e)
        = Execution.output_tensor_device_ids e)
  /\ (forall e1 e2 : Execution.t,
        Execution.op_type e1 = Execution.op_type e2 ->
        Execution.output_tensor_device_ids e1 = Execution.output_tensor_device_ids e2 ->
        Execution.as_ExecutionDigest e1 = Execution.as_ExecutionDigest e2)
  /\ (forall d : ExecutionDigest.t,
        exists e : Execution.t, Execution.as_ExecutionDigest e = d).
Proof.
  split; [intros e; split; reflexivity|]. split.
  - intros e1 e2 H1 H2. unfold Execution.as_ExecutionDigest. rewrite H1, H2. reflexivity.
  - intros [op ids].
    exists (Execution.mk op ids "" [] (S754_zero false) None [] [] None).
    reflexivity.
Qed.

(** C8. Every [StackFrame] is a 4-tuple of a host name (string), a file
    path (string), a line number (number) and a function name (string), in
    that order: as an array it has exactly four items of these kinds, and
    an array with more or fewer items, or items of other kinds, is no
    [StackFrame]. *)
Theorem StackFrame_is_4_tuple :
  (forall f : StackFrame,
     exists (host_name file_path : string) (lineno : number) (function : string),
       f = (host_name, file_path, lineno, function)
       /\ StackFrame_items f
          = [ItemString host_name; ItemString file_path; ItemNumber lineno;
             ItemString function])
  /\ (forall f : StackFrame,
        length (StackFrame_items f) = 4%nat
        /\ map item_kind (StackFrame_items f) = [KString; KString; KNumber; KString]
        /\ StackFrame_of_items (StackFrame_items f) = Some f)
  /\ (forall (l : list StackFrameItem) (f : StackFrame),
        StackFrame_of_items l = Some f ->
        l = StackFrame_items f /\ length l = 4%nat).
Proof.
  split; [|split].
  - intros [[[h p] n] fn]. exists h, p, n, fn. split; reflexivity.
  - intros [[[h p] n] fn]. repeat split.
  - intros l f H.
    destruct l as [|[h|?] [|[p|?] [|[?|n] [|[fn|?] [|? ?]]]]]; try discriminate H.
    injection H as <-. split; reflexivity.
Qed.

(** C10. For every [InfNanAlert] the member [alert_type] is
    [AlertType.INF_NAN_ALERT], the string 'InfNanAlert': the interface
    narrows the member inherited from [Alert] to that literal, so no
    [InfNanAlert] has another tag, also when it is used as an [Alert]. *)
Theorem InfNanAlert_alert_type (a : InfNanAlert.t) :
  AlertType.literal_value (InfNanAlert.alert_type a) = AlertType.INF_NAN_ALERT
  /\ AlertType.value (AlertType.literal_value (InfNanAlert.alert_type a)) = "InfNanAlert"
  /\ Alert.alert_type (InfNanAlert.as_Alert a) = AlertType.INF_NAN_ALERT
  /\ AlertType.literal_value (InfNanAlert.alert_type a) <> AlertType.FUNCTION_RECOMPILE_ALERT
  /\ AlertType.literal_value (InfNanAlert.alert_type a) <> AlertType.TENSOR_SHAPE_ALERT.
Proof.
  destruct a as [[ty Hty] op slot sz nneg npos nnan ex tr].
  unfold InfNanAlert.as_Alert, AlertType.literal_value. simpl.
  subst ty. repeat split; discriminate.
Qed.

(** ** The debug mode of an execution *)

Lemma TensorDebugMode_of_value_Some (z : Z) (m : TensorDebugMode.t) :
  TensorDebugMode.of_value z = Some m -> TensorDebugMode.value m = z.
Proof.
  unfold TensorDebugMode.of_value. intros H.
  apply find_some in H as [_ H]. apply Z.eqb_eq in H. exact H.
Qed.

Lemma TensorDebugMode_of_number_to_number (m : TensorDebugMode.t) :
  TensorDebugMode.of_number (TensorDebugMode.to_number m) = Some m.
Proof. destruct m; reflexivity. Qed.

(** C7, as stated, fails: [tensor_debug_mode] is declared [number], and an
    [Execution] whose [tensor_debug_mode] is 9 has the declared shape
    although 9 is the value of no [TensorDebugMode] member. *)
Lemma Execution_tensor_debug_mode_outside_enum :
  let e := Execution.mk "MatMul" ["/device:CPU:0"] "localhost" ["frame_0"]
             (number_of_Z 9) None [] [number_of_Z 1] None in
  number_valid (Execution.tensor_debug_mode e) = true
  /\ number_to_Z (Execution.tensor_debug_mode e) = Some 9
  /\ TensorDebugMode.of_number (Execution.tensor_debug_mode e) = None
  /\ ~ (exists m : TensorDebugMode.t,
          Execution.tensor_debug_mode e = TensorDebugMode.to_number m).
Proof.
  cbv zeta. split; [reflexivity|]. split; [reflexivity|]. split; [reflexivity|].
  intros [m Hm]. apply (f_equal number_to_Z) in Hm.
  destruct m; vm_compute in Hm; discriminate Hm.
Qed.

(** C7, amended. [tensor_debug_mode] is a plain number: an [Execution] can
    carry any number there; the value of each of the nine
    [TensorDebugMode] members is such a number and reads back as that
    member; and a value that reads back as a member is the member's
    integer, between 0 and 8. *)
Theorem Execution_tensor_debug_mode_is_number :
  (forall (n : number) (e : Execution.t),
     Execution.tensor_debug_mode (Execution.with_tensor_debug_mode n e) = n)
  /\ (forall (m : TensorDebugMode.t) (e : Execution.t),
        TensorDebugMode.of_number
          (Execution.tensor_debug_mode
             (Execution.with_tensor_debug_mode (TensorDebugMode.to_number m) e))
        = Some m)
  /\ (forall (e : Execution.t) (m : TensorDebugMode.t),
        TensorDebugMode.of_number (Execution.tensor_debug_mode e) = Some m ->
        number_to_Z (Execution.tensor_debug_mode e) = Some (TensorDebugMode.value m)
        /\ 0 <= TensorDebugMode.value m <= 8).
Proof.
  split; [reflexivity|]. split.
  - intros m e. cbn [Execution.with_tensor_debug_mode Execution.tensor_debug_mode].
    apply TensorDebugMode_of_number_to_number.
  - intros e m. unfold TensorDebugMode.of_number.
    destruct (number_to_Z (Execution.tensor_debug_mode e)) as [z|]; [|discriminate].
    intros H. apply TensorDebugMode_of_value_Some in H. subst z.
    split; [reflexivity|]. destruct m; simpl; lia.
Qed.

(** ** Inf/NaN alerts *)

(** C4. An [InfNanAlert] built from an eager execution has
    [graph_execution_trace_index = null]; one built from an intra-graph
    execution has a number there that is a non-negative integer, the index
    of the trace; the member is never present for an alert of an eager
    execution. *)
Theorem InfNanAlert_graph_execution_trace_index
    (origin : AlertOrigin) (op_type : string)
    (output_slot size num_neg_inf num_pos_inf num_nan execution_index : number)
    (Hsafe : origin_index_safe origin) :
  let a := InfNanAlert_of_origin origin op_type output_slot size
             num_neg_inf num_pos_inf num_nan execution_index in
  (origin = EagerExecution -> InfNanAlert.graph_execution_trace_index a = None)
  /\ (forall trace_index : N,
        origin = IntraGraphExecution trace_index ->
        exists n : number,
          InfNanAlert.graph_execution_trace_index a = Some n
          /\ number_is_nonneg_integer n = true
          /\ number_to_Z n = Some (Z.of_N trace_index)
          /\ number_valid n = true)
  /\ (InfNanAlert.graph_execution_trace_index a <> None -> origin <> EagerExecution).
Proof.
  cbv zeta. split; [|split].
  - intros ->. reflexivity.
  - intros i ->. simpl in Hsafe. unfold safe_index in Hsafe.
    exists (number_of_Z (Z.of_N i)). split; [reflexivity|].
    split; [apply number_is_nonneg_integer_of_Z; lia|].
    split; [apply number_to_Z_of_Z|apply number_valid_of_Z]; lia.
  - intros H ->. apply H. reflexivity.
Qed.

(** The alert of the trace of index 7 of an intra-graph execution. *)
Lemma InfNanAlert_graph_execution_trace_index_witness :
  origin_index_safe (IntraGraphExecution 7)
  /\ let a := InfNanAlert_of_origin (IntraGraphExecution 7) "RealDiv"
                (number_of_Z 0) (number_of_Z 4) (number_of_Z 0) (number_of_Z 1)
                (number_of_Z 0) (number_of_Z 12) in
     (IntraGraphExecution 7 = EagerExecution ->
      InfNanAlert.graph_execution_trace_index a = None)
     /\ (forall trace_index : N,
           IntraGraphExecution 7 = IntraGraphExecution trace_index ->
           exists n : number,
             InfNanAlert.graph_execution_trace_index a = Some n
             /\ number_is_nonneg_integer n = true
             /\ number_to_Z n = Some (Z.of_N trace_index)
             /\ number_valid n = true)
     /\ (InfNanAlert.graph_execution_trace_index a <> None ->
         IntraGraphExecution 7 <> EagerExecution).
Proof.
  assert (Hsafe : origin_index_safe (IntraGraphExecution 7))
    by (unfold origin_index_safe, safe_index; simpl; lia).
  split; [exact Hsafe|].
  exact (InfNanAlert_graph_execution_trace_index (IntraGraphExecution 7) "RealDiv"
           (number_of_Z 0) (number_of_Z 4) (number_of_Z 0) (number_of_Z 1)
           (number_of_Z 0) (number_of_Z 12) Hsafe).
Defined.

(** ** Pages of execution digests *)

Lemma pageLoadedSize_full (pageSize numExecutions page : Z) :
  pageLoadedInFull pageSize numExecutions page = true ->
  pageLoadedSize pageSize numExecutions page = pageSize.
Proof.
  unfold pageLoadedInFull, pageLoadedSize, pageEndIndex, pageBeginIndex.
  intros ->. lia.
Qed.

Lemma pageLoadedSize_partial (pageSize numExecutions page : Z) :
  pageRequest pageSize numExecutions page ->
  pageLoadedInFull pageSize numExecutions page = false ->
  0 <= pageLoadedSize pageSize numExecutions page < pageSize.
Proof.
  unfold pageRequest, pageLoadedInFull, pageLoadedSize, pageEndIndex, pageBeginIndex.
  intros [Hpage Hbegin] Hfull. rewrite Hfull.
  apply Z.leb_gt in Hfull. lia.
Qed.

Lemma pageLoadedSize_bounds (pageSize numExecutions page : Z) :
  0 <= pageSize ->
  pageRequest pageSize numExecutions page ->
  0 <= pageLoadedSize pageSize numExecutions page <= pageSize.
Proof.
  intros Hps Hreq.
  destruct (pageLoadedInFull pageSize numExecutions page) eqn:Hfull.
  - rewrite (pageLoadedSize_full _ _ _ Hfull). lia.
  - pose proof (pageLoadedSize_partial _ _ _ Hreq Hfull). lia.
Qed.

Lemma pagesLoaded_pageSize {LoadState : Type} (pageSize : Z)
    (e : Executions.t LoadState) :
  pagesLoaded pageSize e -> Executions.pageSize e = number_of_Z pageSize.
Proof. induction 1 as [e Hps _|e n page _ IH _]; [exact Hps | exact IH]. Qed.

Lemma pagesLoaded_bounded {LoadState : Type} (pageSize : Z)
    (e : Executions.t LoadState) :
  safe_index pageSize ->
  pagesLoaded pageSize e ->
  forall (p v : number),
    ExecutionDigestLoadState.pageLoadedSizes (Executions.executionDigestsLoaded e) !! p
    = Some v ->
    number_leb v (number_of_Z pageSize) = true.
Proof.
  intros Hsafe Hloaded. unfold safe_index in Hsafe.
  induction Hloaded as [e _ Hempty|e n page _ IH Hreq]; intros p v Hlookup.
  - rewrite Hempty, lookup_empty in Hlookup. discriminate.
  - cbn [recordPageLoaded Executions.executionDigestsLoaded
         ExecutionDigestLoadState.pageLoadedSizes] in Hlookup.
    destruct (decide (number_of_Z page = p)) as [<-|Hne].
    + rewrite lookup_insert_eq in Hlookup. injection Hlookup as <-.
      pose proof (pageLoadedSize_bounds pageSize n page ltac:(lia) Hreq) as Hb.
      rewrite number_leb_of_Z by lia. apply Z.leb_le. lia.
    + rewrite lookup_insert_ne in Hlookup by exact Hne. exact (IH p v Hlookup).
Qed.

(** C5. In every [Executions] state the store reaches by loading pages,
    each value of [pageLoadedSizes] is at most [pageSize]; the value
    recorded for a page loaded in full is [pageSize], and for a page
    loaded partially it is strictly smaller. *)
Theorem pageLoadedSizes_le_pageSize {LoadState : Type} (pageSize : Z)
    (e : Executions.t LoadState)
    (Hsafe : safe_index pageSize) (Hloaded : pagesLoaded pageSize e) :
  (forall (p v : number),
     ExecutionDigestLoadState.pageLoadedSizes (Executions.executionDigestsLoaded e) !! p
     = Some v ->
     number_leb v (Executions.pageSize e) = true)
  /\ (forall (numExecutions page : Z),
        pageRequest pageSize numExecutions page ->
        let e' := recordPageLoaded pageSize numExecutions page e in
        exists v : number,
          ExecutionDigestLoadState.pageLoadedSizes (Executions.executionDigestsLoaded e')
            !! number_of_Z page = Some v
          /\ number_to_Z v = Some (pageLoadedSize pageSize numExecutions page)
          /\ number_leb v (Executions.pageSize e') = true
          /\ (pageLoadedInFull pageSize numExecutions page = true ->
              v = Executions.pageSize e')
          /\ (pageLoadedInFull pageSize numExecutions page = false ->
              number_ltb v (Executions.pageSize e') = true)).
Proof.
  pose proof (pagesLoaded_pageSize pageSize e Hloaded) as Hps.
  split.
  - intros p v Hlookup. rewrite Hps.
    exact (pagesLoaded_bounded pageSize e Hsafe Hloaded p v Hlookup).
  - intros n page Hreq e'.
    assert (Hps' : Executions.pageSize e' = number_of_Z pageSize) by exact Hps.
    unfold safe_index in Hsafe.
    pose proof (pageLoadedSize_bounds pageSize n page ltac:(lia) Hreq) as Hb.
    exists (number_of_Z (pageLoadedSize pageSize n page)).
    split; [apply lookup_insert_eq|]. rewrite Hps'.
    split; [apply number_to_Z_of_Z; lia|].
    split; [rewrite number_leb_of_Z by lia; apply Z.leb_le; lia|].
    split.
    + intros Hfull. rewrite (pageLoadedSize_full _ _ _ Hfull). reflexivity.
    + intros Hpart. pose proof (pageLoadedSize_partial _ _ _ Hreq Hpart).
      rewrite number_ltb_of_Z by lia. apply Z.ltb_lt. lia.
Qed.

(** Three executions under page size 2: page 0 is loaded in full, page 1
    holds the one execution left. *)
Lemma pageLoadedSizes_le_pageSize_witness :
  let e0 : Executions.t unit :=
    Executions.mk tt (ExecutionDigestLoadState.mk tt ∅ (number_of_Z 0))
      (number_of_Z 2) (number_of_Z 1) (number_of_Z 0) None ∅ ∅ in
  let e := recordPageLoaded 2 3 1 (recordPageLoaded 2 3 0 e0) in
  safe_index 2
  /\ pagesLoaded 2 e
  /\ ExecutionDigestLoadState.pageLoadedSizes (Executions.executionDigestsLoaded e)
       !! number_of_Z 0 = Some (number_of_Z 2)
  /\ ExecutionDigestLoadState.pageLoadedSizes (Executions.executionDigestsLoaded e)
       !! number_of_Z 1 = Some (number_of_Z 1)
  /\ forall (p v : number),
       ExecutionDigestLoadState.pageLoadedSizes (Executions.executionDigestsLoaded e) !! p
       = Some v ->
       number_leb v (Executions.pageSize e) = true.
Proof.
  intros e0 e.
  assert (Hsafe : safe_index 2) by (unfold safe_index; lia).
  assert (Hloaded : pagesLoaded 2 e).
  { apply pagesLoaded_page; [apply pagesLoaded_page|].
    - apply pagesLoaded_none; reflexivity.
    - unfold pageRequest, pageBeginIndex; lia.
    - unfold pageRequest, pageBeginIndex; lia. }
  split; [exact Hsafe|]. split; [exact Hloaded|].
  split; [vm_compute; reflexivity|]. split; [vm_compute; reflexivity|].
  exact (proj1 (pageLoadedSizes_le_pageSize 2 e Hsafe Hloaded)).
Defined.

(** ** The enum object of [TensorDebugMode] *)

(** X1. The object of the numeric enum maps every member's name to its
    number and every member's number, in decimal, back to its name; it has
    these eighteen properties and no other, so no name collides with
    another name or with a number, and looking a name up and then its
    number gives the name again. *)
Theorem TensorDebugMode_object_mappings :
  (forall m : TensorDebugMode.t,
     TensorDebugMode_object !! TensorDebugMode_name m
     = Some (EnumNumber (TensorDebugMode.value m))
     /\ TensorDebugMode_object !! pretty (TensorDebugMode.value m)
        = Some (EnumName (TensorDebugMode_name m)))
  /\ (forall (k : string) (v : EnumProperty),
        TensorDebugMode_object !! k = Some v ->
        exists m : TensorDebugMode.t,
          (k = TensorDebugMode_name m /\ v = EnumNumber (TensorDebugMode.value m))
          \/ (k = pretty (TensorDebugMode.value m) /\ v = EnumName (TensorDebugMode_name m)))
  /\ size TensorDebugMode_object = 18%nat
  /\ (forall m1 m2 : TensorDebugMode.t,
        TensorDebugMode_name m1 = TensorDebugMode_name m2 -> m1 = m2)
  /\ (forall (z : Z) (s : string),
        TensorDebugMode_object !! pretty z = Some (EnumName s) <->
        exists m : TensorDebugMode.t,
          TensorDebugMode.value m = z /\ TensorDebugMode_name m = s)
  /\ (forall (s : string) (z : Z),
        TensorDebugMode_object !! s = Some (EnumNumber z) ->
        TensorDebugMode_object !! pretty z = Some (EnumName s)).
Proof.
  assert (Hfwd : forall m : TensorDebugMode.t,
     TensorDebugMode_object !! TensorDebugMode_name m
     = Some (EnumNumber (TensorDebugMode.value m))
     /\ TensorDebugMode_object !! pretty (TensorDebugMode.value m)
        = Some (EnumName (TensorDebugMode_name m))).
  { intros m. destruct m; split; vm_compute; reflexivity. }
  assert (Hall : forall (k : string) (v : EnumProperty),
        TensorDebugMode_object !! k = Some v ->
        exists m : TensorDebugMode.t,
          (k = TensorDebugMode_name m /\ v = EnumNumber (TensorDebugMode.value m))
          \/ (k = pretty (TensorDebugMode.value m) /\ v = EnumName (TensorDebugMode_name m))).
  { intros k v H. apply elem_of_map_to_list in H.
    assert (Hl : map_to_list TensorDebugMode_object
      = [("7", EnumName "FULL_TENSOR"); ("3", EnumName "CONCISE_HEALTH");
         ("SHAPE", EnumNumber 5); ("CONCISE_HEALTH", EnumNumber 3);
         ("CURT_HEALTH", EnumNumber 2); ("5", EnumName "SHAPE");
         ("UNSPECIFIED", EnumNumber 0); ("1", EnumName "NO_TENSOR");
         ("NO_TENSOR", EnumNumber 1); ("6", EnumName "FULL_NUMERICS");
         ("FULL_NUMERICS", EnumNumber 6); ("FULL_TENSOR", EnumNumber 7);
         ("FULL_HEALTH", EnumNumber 4); ("2", EnumName "CURT_HEALTH");
         ("REDUCE_INF_NAN_THREE_SLOTS", EnumNumber 8);
         ("4", EnumName "FULL_HEALTH");
         ("8", EnumName "REDUCE_INF_NAN_THREE_SLOTS");
         ("0", EnumName "UNSPECIFIED")]) by (vm_compute; reflexivity).
    rewrite Hl in H. clear Hl.
    repeat (apply elem_of_cons in H as [H|H];
            [injection H as -> ->;
             first
               [ exists TensorDebugMode.UNSPECIFIED; (left + right); split; reflexivity
               | exists TensorDebugMode.NO_TENSOR; (left + right); split; reflexivity
               | exists TensorDebugMode.CURT_HEALTH; (left + right); split; reflexivity
               | exists TensorDebugMode.CONCISE_HEALTH; (left + right); split; reflexivity
               | exists TensorDebugMode.FULL_HEALTH; (left + right); split; reflexivity
               | exists TensorDebugMode.SHAPE; (left + right); split; reflexivity
               | exists TensorDebugMode.FULL_NUMERICS; (left + right); split; reflexivity
               | exists TensorDebugMode.FULL_TENSOR; (left + right); split; reflexivity
               | exists TensorDebugMode.REDUCE_INF_NAN_THREE_SLOTS; (left + right);
                 split; reflexivity ]
            |]).
    apply elem_of_nil in H. contradiction. }
  split; [exact Hfwd|]. split; [exact Hall|].
  split; [vm_compute; reflexivity|].
  split; [intros [] []; intros H; first [reflexivity | discriminate H]|].
  split.
  - intros z s. split.
    + intros H. destruct (Hall _ _ H) as [m [[_ Hv]|[Hk Hv]]]; [discriminate Hv|].
      exists m. apply (inj pretty) in Hk. injection Hv as ->. split; congruence.
    + intros [m [<- <-]]. apply Hfwd.
  - intros s z H. destruct (Hall _ _ H) as [m [[Hk Hv]|[_ Hv]]]; [|discriminate Hv].
    injection Hv as ->. subst s. apply Hfwd.
Qed.

(** ** Page requests *)

(** X2. With a positive page size, every execution index below
    [numExecutions] lies in the range of exactly one page request: that of
    page [index / pageSize], which begins within the data. *)
Theorem page_requests_cover_each_index (pageSize numExecutions index : Z)
    (Hsize : 0 < pageSize) (Hindex : 0 <= index < numExecutions) :
  pageRequest pageSize numExecutions (index / pageSize)
  /\ pageBeginIndex pageSize (index / pageSize) <= index
     < pageEndIndex pageSize numExecutions (index / pageSize)
  /\ (forall page : Z,
        pageBeginIndex pageSize page <= index
          < pageEndIndex pageSize numExecutions page ->
        page = index / pageSize).
Proof.
  pose proof (Z.mul_div_le index pageSize Hsize) as Hlo.
  pose proof (Z.mul_succ_div_gt index pageSize Hsize) as Hhi.
  assert (Hq : 0 <= index / pageSize) by (apply Z.div_pos; lia).
  unfold pageRequest, pageBeginIndex, pageEndIndex.
  split; [lia|]. split.
  - destruct (pageSize * (index / pageSize + 1) <=? numExecutions); lia.
  - intros page Hpage.
    assert (Hend : pageSize * page <= index < pageSize * (page + 1)).
    { destruct (pageSize * (page + 1) <=? numExecutions) eqn:E; [lia|].
      apply Z.leb_gt in E. lia. }
    apply (Z.div_unique index pageSize page (index - pageSize * page)); lia.
Qed.

(** Index 5 of 7 executions, under page size 3, is on page 1. *)
Lemma page_requests_cover_each_index_witness :
  0 < 3 /\ 0 <= 5 < 7
  /\ pageRequest 3 7 (5 / 3)
  /\ pageBeginIndex 3 (5 / 3) <= 5 < pageEndIndex 3 7 (5 / 3)
  /\ (forall page : Z,
        pageBeginIndex 3 page <= 5 < pageEndIndex 3 7 page -> page = 5 / 3).
Proof.
  assert (H1 : 0 < 3) by lia. assert (H2 : 0 <= 5 < 7) by lia.
  split; [exact H1|]. split; [exact H2|].
  exact (page_requests_cover_each_index 3 7 5 H1 H2).
Defined.

(** X3. With a positive page size, a page request that is not loaded in
    full is the request for the last page, [numExecutions / pageSize]: it
    ends at [numExecutions], and every request for an earlier page is
    loaded in full and ends where the next page begins. *)
Theorem only_last_page_is_partial (pageSize numExecutions page : Z)
    (Hsize : 0 < pageSize) (Hreq : pageRequest pageSize numExecutions page) :
  (pageLoadedInFull pageSize numExecutions page = false ->
   page = numExecutions / pageSize
   /\ pageEndIndex pageSize numExecutions page = numExecutions
   /\ pageLoadedSize pageSize numExecutions page = numExecutions mod pageSize)
  /\ (page < numExecutions / pageSize ->
      pageLoadedInFull pageSize numExecutions page = true)
  /\ (pageLoadedInFull pageSize numExecutions page = true ->
      pageEndIndex pageSize numExecutions page = pageBeginIndex pageSize (page + 1)
      /\ pageLoadedSize pageSize numExecutions page = pageSize).
Proof.
  destruct Hreq as [Hpage Hbegin]. unfold pageBeginIndex in Hbegin.
  pose proof (Z.mul_div_le numExecutions pageSize Hsize) as Hlo.
  pose proof (Z.mul_succ_div_gt numExecutions pageSize Hsize) as Hhi.
  unfold pageLoadedInFull, pageLoadedSize, pageEndIndex, pageBeginIndex.
  split; [|split].
  - intros Hpart. rewrite Hpart. apply Z.leb_gt in Hpart.
    assert (Hq : page = numExecutions / pageSize).
    { apply (Z.div_unique numExecutions pageSize page (numExecutions - pageSize * page)); lia. }
    split; [exact Hq|]. split; [reflexivity|].
    rewrite (Z.mod_eq numExecutions pageSize) by lia. rewrite <- Hq. reflexivity.
  - intros Hlt. apply Z.leb_le. nia.
  - intros Hfull. rewrite Hfull. split; lia.
Qed.

(** Seven executions under page size 3: page 2 holds the last one. *)
Lemma only_last_page_is_partial_witness :
  0 < 3 /\ pageRequest 3 7 2
  /\ (pageLoadedInFull 3 7 2 = false ->
      2 = 7 / 3 /\ pageEndIndex 3 7 2 = 7 /\ pageLoadedSize 3 7 2 = 7 mod 3).
Proof.
  assert (H1 : 0 < 3) by lia.
  assert (H2 : pageRequest 3 7 2) by (unfold pageRequest, pageBeginIndex; lia).
  split; [exact H1|]. split; [exact H2|].
  exact (proj1 (only_last_page_is_partial 3 7 2 H1 H2)).
Defined.

(** X4. When each of the pages [0] to [pages - 1] begins within the data,
    the sizes of their requests add up to
    [min (pageSize * pages) numExecutions]; once the pages reach past the
    data, they add up to [numExecutions]. *)
Theorem pages_load_each_execution_once (pageSize numExecutions : Z) (pages : nat)
    (Hsize : 0 < pageSize) (Hnum : 0 <= numExecutions)
    (Hpages : pageSize * (Z.of_nat pages - 1) <= numExecutions) :
  loadedThrough pageSize numExecutions pages
  = Z.min (pageSize * Z.of_nat pages) numExecutions
  /\ (numExecutions < pageSize * Z.of_nat pages ->
      loadedThrough pageSize numExecutions pages = numExecutions).
Proof.
  assert (Hmain : loadedThrough pageSize numExecutions pages
                  = Z.min (pageSize * Z.of_nat pages) numExecutions).
  { induction pages as [|k IH].
    - simpl. lia.
    - cbn [loadedThrough]. rewrite IH by lia.
      unfold pageLoadedSize, pageEndIndex, pageBeginIndex.
      destruct (pageSize * (Z.of_nat k + 1) <=? numExecutions) eqn:E.
      + apply Z.leb_le in E. lia.
      + apply Z.leb_gt in E. lia. }
  split; [exact Hmain|]. intros Hlast. rewrite Hmain. lia.
Qed.

(** Seven executions under page size 3 are loaded by pages 0, 1 and 2. *)
Lemma pages_load_each_execution_once_witness :
  0 < 3 /\ 0 <= 7 /\ 3 * (Z.of_nat 3 - 1) <= 7
  /\ loadedThrough 3 7 3 = Z.min (3 * Z.of_nat 3) 7
  /\ (7 < 3 * Z.of_nat 3 -> loadedThrough 3 7 3 = 7).
Proof.
  assert (H1 : 0 < 3) by lia. assert (H2 : 0 <= 7) by lia.
  assert (H3 : 3 * (Z.of_nat 3 - 1) <= 7) by (simpl; lia).
  split; [exact H1|]. split; [exact H2|]. split; [exact H3|].
  exact (pages_load_each_execution_once 3 7 3 H1 H2 H3).
Defined.
